(** * run_sim.py: the screen-and-treat cascade builder [make_st]

    A shallow embedding of [make_st] (run_sim.py, lines 22-86) and of the
    five eligibility lambdas it defines, of the scenario runner [make_sim]
    and [run_sim] (lines 89-190) and of the script (lines 194-235),
    followed by their properties.

    Python floats are read under two arithmetics that share one embedding:
    - [Binary64]: IEEE 754 doubles, with Rocq's primitive floats for [+],
      [-], [/] and the comparisons; the value of [x ** y] comes from the
      platform's libm and is a parameter of the arithmetic;
    - [Exact]: real numbers, the arithmetic in which the coverage formula
      was derived.
    The simulation state the lambdas read (step counter, [dt], the
    [date_screened] array with its NaN entries) is always binary64. *)

From Stdlib Require Import ZArith Floats Reals Lra Lia.
From stdpp Require Import gmap strings list pretty.

Set Default Proof Using "Type".

(** ** Exceptions *)

Inductive pyexc : Type :=
  | ZeroDivisionError
  | KeyError (key : string)
  | ValueError (msg : string).

Inductive py (A : Type) : Type :=
  | Ret (a : A)
  | Raise (e : pyexc).
Arguments Ret {A} a.
Arguments Raise {A} e.

Definition py_bind {A B : Type} (m : py A) (k : A → py B) : py B :=
  match m with
  | Ret a => k a
  | Raise e => Raise e
  end.

Declare Scope py_scope.
Delimit Scope py_scope with py.
Notation "'let!' x ':=' m 'in' k" := (py_bind m (fun x => k))
  (at level 10, x name, m at level 200, k at level 200) : py_scope.

(** ** Numbers *)

(** The result of an arithmetic expression on floats: a float, or a complex
    number (a negative base raised to a fractional power). Complex values
    are only recorded as such. *)
Inductive pynum (F : Type) : Type :=
  | PyFloat (x : F)
  | PyComplex.
Arguments PyFloat {F} x.
Arguments PyComplex {F}.

(** What a float type provides to the expressions of [make_st]. *)
Class FloatOps (F : Type) : Type := {
  of_int : Z → F;                  (* an int operand converted to float *)
  fsub : F → F → F;                (* x - y *)
  fdiv : F → F → F;                (* the quotient, divisor not zero *)
  fis_zero : F → bool;             (* x == 0.0 *)
  fpow : F → F → py (pynum F);     (* x ** y *)
  fle : F → F → Prop;              (* x <= y *)
  flt : F → F → Prop;              (* x < y *)
}.

Section PythonArithmetic.
Context {F : Type} `{FloatOps F}.

(** [a / b] on two ints (both small enough to convert exactly). *)
Definition int_truediv (a b : Z) : py F :=
  if (b =? 0)%Z then Raise ZeroDivisionError
  else Ret (fdiv (of_int a) (of_int b)).

(** [x / y] with a float among the operands. *)
Definition float_truediv (x y : F) : py F :=
  if fis_zero y then Raise ZeroDivisionError else Ret (fdiv x y).

(** [n - v] for an int [n]. *)
Definition int_sub (n : Z) (v : pynum F) : pynum F :=
  match v with
  | PyFloat x => PyFloat (fsub (of_int n) x)
  | PyComplex => PyComplex
  end.

Definition in_unit (x : F) : Prop := fle (of_int 0) x ∧ fle x (of_int 1).

End PythonArithmetic.

(** *** Binary64 *)

(** An int as a double: the nearest one, ties to even. (From 2^1024 on
    this is an infinity, where Python raises OverflowError; the ints of
    [make_st] are the literals 1, 2, 4, 20, and the lambdas convert 5 and
    the step counter [sim.t].) *)
Definition float_of_Z (z : Z) : float :=
  SF2Prim (binary_normalize prec emax z 0 false).

(** [x ** y] on doubles. CPython decides three cases itself: a zero
    exponent gives 1.0, the base 1.0 gives 1.0, and a zero base with a
    negative finite exponent raises. Everywhere else the value is
    [pow_value x y], which is libm's (or complex). The OverflowError of a
    result beyond the double range is left out: it needs an exponent above
    1 or below 0. *)
Definition float_pow (pow_value : float → float → pynum float)
    (x y : float) : py (pynum float) :=
  if (y =? 0)%float then Ret (PyFloat 1%float)
  else if (x =? 1)%float then Ret (PyFloat 1%float)
  else if (y <? 0)%float && negb (is_infinity y) && (x =? 0)%float
       then Raise ZeroDivisionError
  else Ret (pow_value x y).

Definition binary64_ops (pow_value : float → float → pynum float)
    : FloatOps float := {|
  of_int := float_of_Z;
  fsub := PrimFloat.sub;
  fdiv := PrimFloat.div;
  fis_zero := fun x => (x =? 0)%float;
  fpow := float_pow pow_value;
  fle := fun x y => (x <=? y)%float = true;
  flt := fun x y => (x <? y)%float = true;
|}.

(** *** Exact arithmetic *)

Definition Ris_zero (x : R) : bool := if Req_dec_T x 0 then true else false.

Definition Ris_int (x : R) : bool :=
  if Req_dec_T (frac_part x) 0 then true else false.

Definition exact_pow (x y : R) : py (pynum R) :=
  if Ris_zero y then Ret (PyFloat 1%R)
  else if Ris_zero x then
    if Rlt_dec y 0 then Raise ZeroDivisionError else Ret (PyFloat 0%R)
  else if Rlt_dec x 0 then
    if Ris_int y then Ret (PyFloat (powerRZ x (Int_part y)))
    else Ret PyComplex
  else Ret (PyFloat (Rpower x y)).

Definition exact_ops : FloatOps R := {|
  of_int := IZR;
  fsub := Rminus;
  fdiv := Rdiv;
  fis_zero := Ris_zero;
  fpow := exact_pow;
  fle := Rle;
  flt := Rlt;
|}.

(** *** The two arithmetics *)

Inductive arith : Type :=
  | Exact
  | Binary64 (pow_value : float → float → pynum float).

Definition num (A : arith) : Type :=
  match A with
  | Exact => R
  | Binary64 _ => float
  end.

#[export] Instance arith_ops (A : arith) : FloatOps (num A) :=
  match A with
  | Exact => exact_ops
  | Binary64 pow_value => binary64_ops pow_value
  end.

(** ** The simulation state read by the eligibility lambdas *)

(** The simulation is the library's, which is no part of this repository.
    Of its state the lambdas read the step counter [sim.t], the step size
    [sim['dt']], the array [sim.people.date_screened] (NaN for a person
    never screened) and, by label, the interventions with their
    [outcomes]. *)

(** Modelled from the spec: the outcome set of a step, a partition of
    the eligible people into named outcome buckets. It is the [outcomes]
    dict of the intervention, from bucket name to the array of indices of
    the people in the bucket. *)
Record intv_state : Type := IntvState {
  outcomes : gmap string (list Z);
}.

(** Modelled from the spec: the simulation state an eligibility predicate
    is a function of, with the outcome buckets retrievable by step label.
    [get_intervention] is the library's lookup, which raises when no
    intervention has the label. *)
Record Sim : Type := MkSim {
  sim_t : Z;                                  (* sim.t *)
  sim_dt : float;                             (* sim['dt'] *)
  date_screened : list float;                 (* sim.people.date_screened *)
  get_intervention : string → py intv_state;  (* sim.get_intervention(label) *)
}.

(** What an eligibility lambda returns: a boolean mask over the people, or
    a collection of indices. *)
Inductive eligible : Type :=
  | Mask (m : list bool)
  | Inds (l : list Z).

Definition sim_truediv (x y : float) : py float :=
  if (y =? 0)%float then Raise ZeroDivisionError else Ret (x / y)%float.

(** [sim.get_intervention(label).outcomes[key]] *)
Definition outcome (sim : Sim) (label key : string) : py (list Z) :=
  (let! i := get_intervention sim label in
   match outcomes i !! key with
   | Some a => Ret a
   | None => Raise (KeyError key)
   end)%py.

Definition screen_eligible (sim : Sim) : py eligible :=
  (let! q := sim_truediv (float_of_Z 5) (sim_dt sim) in
   Ret (Mask ((fun d => is_nan d || (d + q <? float_of_Z (sim_t sim))%float)
              <$> date_screened sim)))%py.

Definition screen_positive (sim : Sim) : py eligible :=
  (let! a := outcome sim "screening" "positive" in Ret (Inds a))%py.

Definition ablation_eligible (sim : Sim) : py eligible :=
  (let! a := outcome sim "tx assigner" "ablation" in Ret (Inds a))%py.

(** [list(set(a + b))]: the members of the set, in the order of Python's
    hash table, for which the order of [elements] stands. *)
Definition excision_eligible (sim : Sim) : py eligible :=
  (let! a := outcome sim "tx assigner" "excision" in
   let! b := outcome sim "ablation" "unsuccessful" in
   Ret (Inds (elements (list_to_set (a ++ b) : gset Z))))%py.

Definition radiation_eligible (sim : Sim) : py eligible :=
  (let! a := outcome sim "tx assigner" "radiation" in Ret (Inds a))%py.

(** ** Objects *)

(** [make_st] builds objects: the [age_range] list, the product instance
    [hpv.radiation()] and the five interventions. The heap is the list of
    the objects built so far; an object's address is its position, and a
    new object goes to the end. *)
Definition addr : Type := nat.

Inductive product_arg : Type :=
  | ProductName (name : string)      (* product='ablation' *)
  | ProductObj (a : addr).           (* product=hpv.radiation() *)

Inductive constructor : Type :=
  | routine_screening
  | routine_triage
  | treat_num.

(** Modelled from the spec: an intervention step, a named stage with a
    trigger probability, an eligibility predicate, a product identifier
    and a label. The fields are the keywords of the constructor calls in
    [make_st]; [None] stands for a keyword a call leaves out. The list
    [age_range] and the product instance are held by reference, as Python
    passes them. *)
Record intervention (F : Type) : Type := Intervention {
  kind : constructor;
  prob : pynum F;
  annual_prob : option bool;
  eligibility : Sim → py eligible;
  start_year : option Z;
  product : product_arg;
  age_range : option addr;
  label : string;
}.
Arguments Intervention {F}.
Arguments kind {F} i.
Arguments prob {F} i.
Arguments annual_prob {F} i.
Arguments eligibility {F} i.
Arguments start_year {F} i.
Arguments product {F} i.
Arguments age_range {F} i.
Arguments label {F} i.

Inductive object (F : Type) : Type :=
  | ListObj (l : list Z)
  | ProductInst (cls : string)
  | IntvObj (i : intervention F).
Arguments ListObj {F} l.
Arguments ProductInst {F} cls.
Arguments IntvObj {F} i.

Abbreviation heap F := (list (object F)).

(** Construction code: it may raise, and it may add objects to the heap. *)
Definition M (F A : Type) : Type := heap F → py (A * heap F).

Definition M_bind {F A B : Type} (m : M F A) (k : A → M F B) : M F B :=
  fun h =>
    match m h with
    | Ret (a, h') => k a h'
    | Raise e => Raise e
    end.

Definition M_ret {F A : Type} (a : A) : M F A := fun h => Ret (a, h).

Definition lift {F A : Type} (m : py A) : M F A :=
  fun h =>
    match m with
    | Ret a => Ret (a, h)
    | Raise e => Raise e
    end.

Definition new {F : Type} (o : object F) : M F addr :=
  fun h => Ret (length h, h ++ [o]).

Declare Scope M_scope.
Delimit Scope M_scope with M.
Notation "'let!' x ':=' m 'in' k" := (M_bind m (fun x => k))
  (at level 10, x name, m at level 200, k at level 200) : M_scope.

Definition lookup_intv {F : Type} (h : heap F) (a : addr)
    : option (intervention F) :=
  match h !! a with
  | Some (IntvObj i) => Some i
  | _ => None
  end.

Definition lookup_list {F : Type} (h : heap F) (a : addr) : option (list Z) :=
  match h !! a with
  | Some (ListObj l) => Some l
  | _ => None
  end.

Definition lookup_product {F : Type} (h : heap F) (a : addr) : option string :=
  match h !! a with
  | Some (ProductInst cls) => Some cls
  | _ => None
  end.

(** ** The constructors of the simulation library *)

(** [hpv.routine_screening], [hpv.routine_triage], [hpv.treat_num] and
    [hpv.radiation] belong to the simulation library, not to this
    repository. *)

Section Constructors.
Context {F : Type}.

(** Modelled from the spec: [hpv.routine_screening(...)] creates a step,
    a stateless template; the call builds one new object, which holds its
    keyword arguments. *)
Definition hpv_routine_screening (prob : pynum F)
    (eligibility : Sim → py eligible) (start_year : Z)
    (product : string) (age_range : addr) (label : string) : M F addr :=
  new (IntvObj (Intervention routine_screening prob None eligibility
                  (Some start_year) (ProductName product) (Some age_range)
                  label)).

(** Modelled from the spec: [hpv.routine_triage(...)], likewise. *)
Definition hpv_routine_triage (start_year : Z) (prob : pynum F)
    (annual_prob : bool) (product : string)
    (eligibility : Sim → py eligible) (label : string) : M F addr :=
  new (IntvObj (Intervention routine_triage prob (Some annual_prob)
                  eligibility (Some start_year) (ProductName product) None
                  label)).

(** Modelled from the spec: [hpv.treat_num(...)], likewise. *)
Definition hpv_treat_num (prob : pynum F) (annual_prob : bool)
    (product : product_arg) (eligibility : Sim → py eligible)
    (label : string) : M F addr :=
  new (IntvObj (Intervention treat_num prob (Some annual_prob) eligibility
                  None product None label)).

(** Modelled from the spec: [hpv.radiation()] builds a new instance of
    the product, the action identifier of the radiation step. *)
Definition hpv_radiation : M F addr := new (ProductInst "radiation").
End Constructors.

(** ** make_st *)

(** The five lambdas of [make_st] capture no variable of the call, so they
    are the top-level functions [screen_eligible] ... [radiation_eligible]
    above. The literal [1.0] of the treatment assigner is [of_int 1]. *)

Section MakeSt.
Context {F : Type} `{FloatOps F}.

(** The list [age_range = [30, 50]] (the field [age_range] of a step holds
    the address of the list object). *)
Definition age_range_value : list Z := [30; 50]%Z.

Definition len_age_range : py F :=
  int_truediv (nth 1 age_range_value 0 - nth 0 age_range_value 0)%Z 2.

Definition model_annual_screen_prob (screen_coverage : F) : py (pynum F) :=
  (let! len_age_range := len_age_range in
   let! exponent := float_truediv (of_int 1) len_age_range in
   let! power := fpow (fsub (of_int 1) screen_coverage) exponent in
   Ret (int_sub 1 power))%py.

Definition make_st (product : string) (screen_coverage treat_coverage : F)
    (start_year : Z) : M F (list addr) :=
  (let! age_range := new (ListObj age_range_value) in
   let! model_annual_screen_prob :=
     lift (model_annual_screen_prob screen_coverage) in
   let! screening :=
     hpv_routine_screening model_annual_screen_prob screen_eligible
       start_year product age_range "screening" in
   let! assign_treatment :=
     hpv_routine_triage start_year (PyFloat (of_int 1)) false "tx_assigner"
       screen_positive "tx assigner" in
   let! ablation :=
     hpv_treat_num (PyFloat treat_coverage) false (ProductName "ablation")
       ablation_eligible "ablation" in
   let! excision :=
     hpv_treat_num (PyFloat treat_coverage) false (ProductName "excision")
       excision_eligible "excision" in
   let! radiation_prob := lift (float_truediv treat_coverage (of_int 4)) in
   let! radiation_product := hpv_radiation in
   let! radiation :=
     hpv_treat_num (PyFloat radiation_prob) false
       (ProductObj radiation_product) radiation_eligible "radiation" in
   M_ret [screening; assign_treatment; ablation; excision; radiation])%M.
End MakeSt.

(** The interventions a run of [make_st] returns, read back from the heap
    it leaves; [None] if the run raises. *)
Definition steps_of {F : Type} (r : py (list addr * heap F))
    : option (list (intervention F)) :=
  match r with
  | Ret (l, h) => mapM (lookup_intv h) l
  | Raise _ => None
  end.

(** * The scenario runner: make_sim and run_sim *)

(** ** Python values *)

(** The values [make_sim] puts into the parameter set. Decimal literals
    stand for the nearest double, as in Python. *)
#[warnings="-register-all"] Inductive pyval : Type :=
  | VNone
  | VInt (z : Z)
  | VFloat (x : float)
  | VStr (s : string)
  | VList (l : list pyval)
  | VDict (d : list (string * pyval))      (* dict(key=value, ...) *)
  | VArray (rows : list (list float))      (* np.array([[...], ...]) *)
  | VObj (a : addr).                       (* another object, by reference *)

(** [l[i]]: a negative index counts from the end; [None] stands for
    IndexError. *)
Definition getitem {X : Type} (l : list X) (i : Z) : option X :=
  let n := Z.of_nat (length l) in
  if (0 <=? i)%Z && (i <? n)%Z then l !! Z.to_nat i
  else if (- n <=? i)%Z && (i <? 0)%Z then l !! Z.to_nat (n + i)
  else None.

Inductive run_result (X : Type) : Type :=
  | Returned (x : X)
  | RaisedIndexError.
Arguments Returned {X} x.
Arguments RaisedIndexError {X}.

(** [location], a string or [None], as a value and as the f-string
    [f'{location}'] prints it. *)
Definition location_value (location : option string) : pyval :=
  match location with
  | Some s => VStr s
  | None => VNone
  end.

Definition format_location (location : option string) : string :=
  match location with
  | Some s => s
  | None => "None"
  end.

(** ** The simulation object *)

(** Modelled from the spec: the engine accepts a parameter object and the
    lists of interventions and analyzers. The object [hpv.Sim(...)] builds
    holds these arguments; [label] and [meta] are the attributes [run_sim]
    sets on it ([None] until then). *)
Record sim_object : Type := SimObject {
  pars : gmap string pyval;
  sim_interventions : pyval;
  sim_analyzers : pyval;
  sim_datafile : pyval;
  sim_label : option string;
  sim_meta : option addr;
}.

(** Modelled from the spec: [hpv.Sim(pars=..., interventions=...,
    analyzers=..., datafile=...)] instantiates the engine. *)
Definition hpv_Sim (pars : gmap string pyval)
    (interventions analyzers datafile : pyval) : sim_object :=
  SimObject pars interventions analyzers datafile None None.

(** Modelled from the spec: [sim[key] = value] sets a parameter of the
    simulation. *)
Definition sim_setitem (sim : sim_object) (key : string) (value : pyval)
    : sim_object :=
  SimObject (<[key := value]> (pars sim)) (sim_interventions sim)
    (sim_analyzers sim) (sim_datafile sim) (sim_label sim) (sim_meta sim).

Definition set_label (sim : sim_object) (label : string) : sim_object :=
  SimObject (pars sim) (sim_interventions sim) (sim_analyzers sim)
    (sim_datafile sim) (Some label) (sim_meta sim).

Definition set_meta (sim : sim_object) (meta : addr) : sim_object :=
  SimObject (pars sim) (sim_interventions sim) (sim_analyzers sim)
    (sim_datafile sim) (sim_label sim) (Some meta).

(** ** make_sim *)

Definition debut : pyval :=
  VDict [ ("f", VDict [("dist", VStr "lognormal"); ("par1", VFloat 17.41);
                       ("par2", VFloat 2.75)]);
          ("m", VDict [("dist", VStr "lognormal"); ("par1", VFloat 17.91);
                       ("par2", VFloat 2.83)]) ].

Definition layer_probs : pyval :=
  VDict [
    ("m", VArray [
       [0; 5; 10; 15; 20; 25; 30; 35; 40; 45; 50; 55; 60; 65; 70; 75];
       [0; 0; 0; 0.1596; 0.4466; 0.5845; 0.6139; 0.6202; 0.6139; 0.5726;
        0.35; 0.21; 0.14; 0.07; 0.035; 0.007];
       [0; 0; 0; 0.228; 0.638; 0.835; 0.877; 0.886; 0.877; 0.818;
        0.5; 0.3; 0.2; 0.1; 0.05; 0.01] ]%float);
    ("c", VArray [
       [0; 5; 10; 15; 20; 25; 30; 35; 40; 45; 50; 55; 60; 65; 70; 75];
       [0; 0; 0.2; 0.6; 0.6; 0.6; 0.4; 0.4; 0.4; 0.1;
        0.02; 0.02; 0.02; 0.02; 0.02; 0.02];
       [0; 0; 0.2; 0.6; 0.8; 0.6; 0.6; 0.8; 0.95; 0.95;
        0.02; 0.02; 0.02; 0.02; 0.02; 0.02] ]%float) ].

Definition m_partners : pyval :=
  VDict [ ("m", VDict [("dist", VStr "poisson1"); ("par1", VFloat 0.01)]);
          ("c", VDict [("dist", VStr "poisson1"); ("par1", VFloat 0.2)]) ].

Definition f_partners : pyval :=
  VDict [ ("m", VDict [("dist", VStr "poisson1"); ("par1", VFloat 0.01)]);
          ("c", VDict [("dist", VStr "poisson1"); ("par1", VFloat 0.2)]) ].

(** [make_sim] and [run_sim] take keyword arguments; the defaults of
    [make_sim] are location='nigeria', calib_pars=None, debug=0,
    interventions=None, analyzers=None, datafile=None, seed=1, end=2020,
    and [run_sim] calls it without [seed] and [datafile]. *)

Section Runner.

(** [sc.mergedicts] is the utility library's; the runner is modelled for
    any merging function. *)
Variable mergedicts :
  gmap string pyval → gmap string pyval → gmap string pyval.

Definition make_sim (location : option string)
    (calib_pars : option (gmap string pyval)) (debug : Z)
    (interventions analyzers datafile : pyval) (seed end_ : Z)
    : run_result sim_object :=
  match getitem [VFloat 20e3; VFloat 1e3] debug,
        getitem [VFloat 0.25; VFloat 1.0] debug,
        getitem [VInt 1960; VInt 1980] debug with
  | Some n_agents, Some dt, Some start =>
      let pars : gmap string pyval :=
        list_to_map [ ("n_agents", n_agents); ("dt", dt); ("start", start);
                      ("end", VInt end_);
                      ("genotypes",
                       VList [VInt 16; VInt 18; VStr "hi5"; VStr "ohr"]);
                      ("location", location_value location);
                      ("ms_agent_ratio", VInt 100);
                      ("verbose", VFloat 0.0);
                      ("rand_seed", VInt seed) ] in
      let pars := <["debut" := debut]> pars in
      let pars := <["layer_probs" := layer_probs]> pars in
      let pars := <["m_partners" := m_partners]> pars in
      let pars := <["f_partners" := f_partners]> pars in
      let pars :=
        match calib_pars with
        | Some calib_pars => mergedicts pars calib_pars
        | None => pars
        end in
      Returned (hpv_Sim pars interventions analyzers datafile)
  | _, _, _ => RaisedIndexError
  end.

(** ** run_sim *)

(** Modelled from the spec: the engine runs the simulation, and results may
    be written to a file. What [sim.run()], [sim.shrink()] and
    [sim.save(path)] do is the engine's; the model records each call with
    the simulation as the script has set it up by then. *)
Inductive engine_call : Type :=
  | SimRun (sim : sim_object)
  | SimShrink (sim : sim_object)
  | SimSave (sim : sim_object) (path : string).

(** The objects [run_sim] shares with its caller: the [sc.objdict]s, by
    address, and the calls made to the engine so far. *)
Record world : Type := World {
  objdicts : list (gmap string pyval);
  calls : list engine_call;
}.

(** [sc.objdict()] *)
Definition new_objdict (w : world) : addr * world :=
  (length (objdicts w), World (objdicts w ++ [∅]) (calls w)).

(** [obj.key = value] on the objdict at [a] *)
Definition objdict_setattr (w : world) (a : addr) (key : string)
    (value : pyval) : world :=
  World (alter (insert key value) a (objdicts w)) (calls w).

Definition call (w : world) (c : engine_call) : world :=
  World (objdicts w) (calls w ++ [c]).

Definition run_sim (location : option string)
    (analyzers interventions : pyval) (debug seed : Z) (verbose : float)
    (do_save : bool) (end_ : Z) (calib_pars : option (gmap string pyval))
    (meta : option addr) (w : world) : run_result sim_object * world :=
  match make_sim location calib_pars debug interventions analyzers VNone 1
          end_ with
  | RaisedIndexError => (RaisedIndexError, w)
  | Returned sim =>
      let sim := sim_setitem sim "rand_seed" (VInt seed) in
      let sim := set_label sim (format_location location +:+ "--" +:+ pretty seed) in
      let '(blank, w) := new_objdict w in
      let sim := set_meta sim blank in
      let '(sim, w) :=
        match meta with
        | Some meta => (set_meta sim meta, w)
        | None => let '(blank, w) := new_objdict w in (set_meta sim blank, w)
        end in
      let w :=
        match sim_meta sim with
        | Some a => objdict_setattr w a "location" (location_value location)
        | None => w
        end in
      let sim := sim_setitem sim "verbose" (VFloat verbose) in
      let w := call w (SimRun sim) in
      let w := call w (SimShrink sim) in
      let w :=
        if do_save
        then call w (SimSave sim ("results/" +:+ format_location location
                                  +:+ ".sim"))
        else w in
      (Returned sim, w)
  end.
End Runner.

(** ** The script (lines 194-235) *)

(** The module-level switch [debug = 0]. *)
Definition debug : Z := 0.

(** [res['year'][50:]]: a slice of a result of a simulation that has run.
    The results are the engine's; the model names the simulation, the
    result and the first index. *)
Inductive series : Type :=
  | Series (sim : sim_object) (key : string) (first : nat).

(** The calls of the script to the timer, to [sim.plot()] and to pylab. *)
Inductive script_call : Type :=
  | TimerStart                                    (* T = sc.timer() *)
  | SimPlot (sim : sim_object)                    (* sim.plot() *)
  | PlFigure
  | PlPlot (x y : series) (color : option string) (label : string)
  | PlLegend
  | PlTitle (title : string)
  | PlShow
  | TimerToc (msg : string).                      (* T.toc('Done') *)

Definition to_run : list string := ["run_scenario"].

(** A list of interventions as the argument [interventions]. *)
Definition interventions_value (l : list addr) : pyval := VList (VObj <$> l).

(** The script from a heap of intervention objects and a world; [None]
    stands for an exception that ends it. The coverages are doubles. *)
Definition main (pow_value : float → float → pynum float)
    (mergedicts : gmap string pyval → gmap string pyval → gmap string pyval)
    (h : heap float) (w : world)
    : option (heap float * world * list script_call) :=
  let log := [TimerStart] in
  let location := "nigeria" in
  let single :=
    if bool_decide ("run_single" ∈ to_run) then
      match run_sim mergedicts None VNone VNone debug 1%Z 0.2%float false 2020%Z None
              None w with
      | (Returned sim, w) => Some (w, log ++ [SimPlot sim])
      | (RaisedIndexError, _) => None
      end
    else Some (w, log) in
  match single with
  | None => None
  | Some (w, log) =>
      if bool_decide ("run_scenario" ∈ to_run) then
        match make_st (F := num (Binary64 pow_value)) "hpv" 0.05%float
                0.3%float 2020%Z h
        with
        | Raise _ => None
        | Ret (baseline_st, h) =>
            match make_st (F := num (Binary64 pow_value)) "hpv" 0.50%float
                    0.7%float 2020%Z h with
            | Raise _ => None
            | Ret (scenario_st, h) =>
                match run_sim mergedicts None VNone
                        (interventions_value baseline_st) debug 1%Z
                        0.2%float false 2060%Z None None w with
                | (RaisedIndexError, _) => None
                | (Returned sim_baseline, w) =>
                    match run_sim mergedicts None VNone
                            (interventions_value scenario_st) debug 1%Z
                            0.2%float false 2060%Z None None w with
                    | (RaisedIndexError, _) => None
                    | (Returned sim_scenario, w) =>
                        let what := "cancers" in
                        Some (h, w,
                              log ++
                              [ PlFigure;
                                PlPlot (Series sim_baseline "year" 50)
                                  (Series sim_baseline what 50) None
                                  "Baseline";
                                PlPlot (Series sim_baseline "year" 50)
                                  (Series sim_scenario what 50) (Some "r")
                                  "Improved screen & treat";
                                PlLegend; PlTitle what; PlShow;
                                TimerToc "Done" ])
                    end
                end
            end
        end
      else Some (h, w, log ++ [TimerToc "Done"])
  end.

(** * Notions the properties are stated with *)

(** The validation C2 asks for: a coverage outside [0, 1] makes the call
    raise, so that no step is built. *)
Definition rejects_bad_coverage (A : arith) : Prop :=
  ∀ (product : string) (screen_coverage treat_coverage : num A)
    (start_year : Z) (h : heap (num A)),
    ¬ in_unit screen_coverage ∨ ¬ in_unit treat_coverage →
    ∃ e, make_st product screen_coverage treat_coverage start_year h = Raise e.

(** The probability of the screening step a call returns. *)
Definition screening_prob (A : arith) (product : string)
    (screen_coverage treat_coverage : num A) (start_year : Z)
    (h : heap (num A)) : option (pynum (num A)) :=
  match steps_of (make_st product screen_coverage treat_coverage start_year h)
  with
  | Some (screening :: _) => Some (prob screening)
  | _ => None
  end.


Definition same_people (s s' : Sim) : Prop :=
  sim_t s = sim_t s' ∧ sim_dt s = sim_dt s'
  ∧ date_screened s = date_screened s'.

(** [f] reads no intervention at all: the clock and the people decide its
    result. *)
Definition reads_no_step (f : Sim → py eligible) : Prop :=
  ∀ s s', same_people s s' → f s = f s'.

(** [f] reads nothing but the interventions labelled in [deps]: two
    simulations that hold the same interventions under these labels give
    the same result. *)
Definition reads_only_steps (deps : list string) (f : Sim → py eligible)
    : Prop :=
  ∀ s s',
    (∀ l, l ∈ deps → get_intervention s l = get_intervention s' l) →
    f s = f s'.

Section TwoCalls.
Context {F : Type}.

(** [a] was built between the heaps [h] and [h']. *)
Definition built_between (h h' : heap F) (a : addr) : Prop :=
  length h ≤ a < length h'.

(** The step at [a], and every object it refers to, was built between
    [h] and [h']. *)
Definition step_built_between (h h' : heap F) (a : addr) : Prop :=
  ∃ i, lookup_intv h' a = Some i
       ∧ built_between h h' a
       ∧ (∀ w, age_range i = Some w → built_between h h' w)
       ∧ (∀ o, product i = ProductObj o → built_between h h' o).

Definition same_product (h1 : heap F) (p1 : product_arg)
    (h2 : heap F) (p2 : product_arg) : Prop :=
  match p1, p2 with
  | ProductName n1, ProductName n2 => n1 = n2
  | ProductObj o1, ProductObj o2 =>
      ∃ cls, lookup_product h1 o1 = Some cls
             ∧ lookup_product h2 o2 = Some cls
  | _, _ => False
  end.

Definition same_window (h1 : heap F) (w1 : option addr)
    (h2 : heap F) (w2 : option addr) : Prop :=
  match w1, w2 with
  | None, None => True
  | Some a1, Some a2 =>
      ∃ l, lookup_list h1 a1 = Some l ∧ lookup_list h2 a2 = Some l
  | _, _ => False
  end.

(** The steps at [a1] in [h1] and at [a2] in [h2] behave alike: the same
    fields, and equal contents behind their references. *)
Definition same_step (h1 : heap F) (a1 : addr) (h2 : heap F) (a2 : addr)
    : Prop :=
  ∃ i1 i2,
    lookup_intv h1 a1 = Some i1 ∧ lookup_intv h2 a2 = Some i2
    ∧ kind i1 = kind i2 ∧ prob i1 = prob i2
    ∧ annual_prob i1 = annual_prob i2
    ∧ eligibility i1 = eligibility i2
    ∧ start_year i1 = start_year i2 ∧ label i1 = label i2
    ∧ same_product h1 (product i1) h2 (product i2)
    ∧ same_window h1 (age_range i1) h2 (age_range i2).
End TwoCalls.

Ltac step_fields :=
  cbn [kind prob annual_prob eligibility start_year label product age_range
       same_product same_window].

(** Two sample simulation states. *)
Definition sim_quarterly : Sim :=
  MkSim 100 0.25%float [nan; 70%float; 90%float]
    (fun _ => Raise (ValueError "no intervention")).

Definition sim_treating : Sim :=
  MkSim 100 0.25%float []
    (fun label =>
       if String.eqb label "tx assigner" then
         Ret (IntvState {[ "excision" := [4; 7]%Z ]})
       else if String.eqb label "ablation" then
         Ret (IntvState {[ "unsuccessful" := [7; 9]%Z ]})
       else Raise (ValueError "no intervention")).

Definition sim_assigned : Sim :=
  MkSim 100 0.25%float []
    (fun label =>
       if String.eqb label "screening" then
         Ret (IntvState {[ "positive" := [1; 2; 3]%Z ]})
       else if String.eqb label "tx assigner" then
         Ret (IntvState (<[ "ablation" := [1]%Z ]>
                           {[ "radiation" := [3]%Z ]}))
       else Raise (ValueError "no intervention")).

(** A layer table as [make_sim] writes it: a row of age bins from 0 to 75
    in steps of 5, and two rows of shares, one share per bin, each a
    probability. *)
Definition age_bins : list float :=
  [0; 5; 10; 15; 20; 25; 30; 35; 40; 45; 50; 55; 60; 65; 70; 75]%float.

Definition is_share (x : float) : bool := (0 <=? x)%float && (x <=? 1)%float.

Definition same_floats (l k : list float) : bool :=
  (length l =? length k)%nat
  && forallb (fun p => (fst p =? snd p)%float) (zip l k).

Definition layer_table_ok (v : pyval) : bool :=
  match v with
  | VArray [ages; row1; row2] =>
      same_floats ages age_bins
      && (length row1 =? length ages)%nat && (length row2 =? length ages)%nat
      && forallb is_share row1 && forallb is_share row2
  | _ => false
  end.

(** * Properties *)

(** ** Arithmetic of the age window *)

Lemma len_age_range_eq (A : arith) :
  len_age_range (F := num A) = Ret (of_int 10).
Proof.
  destruct A as [|pw]; unfold len_age_range, int_truediv; cbn.
  - f_equal. change (50 - 30)%Z with 20%Z. lra.
  - reflexivity.
Qed.

Lemma exponent_eq (A : arith) :
  float_truediv (F := num A) (of_int 1) (of_int 10)
  = Ret (fdiv (of_int 1) (of_int 10)).
Proof.
  destruct A as [|pw]; unfold float_truediv; cbn.
  - unfold Ris_zero. destruct (Req_dec_T 10 0) as [E|_]; [lra | reflexivity].
  - reflexivity.
Qed.

Lemma quarter_eq (A : arith) (x : num A) :
  float_truediv x (of_int 4) = Ret (fdiv x (of_int 4)).
Proof.
  destruct A as [|pw]; unfold float_truediv; cbn.
  - unfold Ris_zero. destruct (Req_dec_T 4 0) as [E|_]; [lra | reflexivity].
  - reflexivity.
Qed.

Lemma fpow_tenth_returns (A : arith) (x : num A) :
  ∃ v, fpow x (fdiv (of_int 1) (of_int 10)) = Ret v.
Proof.
  destruct A as [|pw]; cbn.
  - unfold exact_pow, Ris_zero.
    destruct (Req_dec_T (1 / 10) 0) as [E|_]; [lra |].
    destruct (Req_dec_T x 0) as [_|_].
    + destruct (Rlt_dec (1 / 10) 0) as [E|_]; [lra | eauto].
    + destruct (Rlt_dec x 0); [destruct (Ris_int (1 / 10)) |]; eauto.
  - unfold float_pow.
    change (float_of_Z 1 / float_of_Z 10)%float
      with 0x1.999999999999ap-4%float.
    change (0x1.999999999999ap-4 =? 0)%float with false.
    change (0x1.999999999999ap-4 <? 0)%float with false.
    cbn. destruct (x =? 1)%float; eauto.
Qed.

Lemma model_annual_screen_prob_eq (A : arith) (screen_coverage : num A) :
  ∃ v, fpow (fsub (of_int 1) screen_coverage) (fdiv (of_int 1) (of_int 10))
       = Ret v
       ∧ model_annual_screen_prob screen_coverage = Ret (int_sub 1 v).
Proof.
  destruct (fpow_tenth_returns A (fsub (of_int 1) screen_coverage)) as [v Hv].
  exists v. split; [exact Hv |].
  unfold model_annual_screen_prob.
  rewrite len_age_range_eq. cbn [py_bind].
  rewrite exponent_eq. cbn [py_bind].
  rewrite Hv. reflexivity.
Qed.

(** ** Running make_st *)

Section Run.
Context (A : arith).
Local Abbreviation F := (num A) (only parsing).

(** The heap a call leaves: the objects it built, in construction order,
    after the heap it started from. *)
Lemma make_st_run (product : string) (screen_coverage treat_coverage : F)
    (start_year : Z) (h : heap F) :
  ∃ p, model_annual_screen_prob screen_coverage = Ret p ∧
    make_st product screen_coverage treat_coverage start_year h =
    Ret ([length h + 1; length h + 2; length h + 3; length h + 4;
          length h + 6],
         h ++ [ ListObj [30; 50]%Z;
                IntvObj (Intervention routine_screening p None
                           screen_eligible (Some start_year)
                           (ProductName product) (Some (length h))
                           "screening");
                IntvObj (Intervention routine_triage (PyFloat (of_int 1))
                           (Some false) screen_positive (Some start_year)
                           (ProductName "tx_assigner") None "tx assigner");
                IntvObj (Intervention treat_num (PyFloat treat_coverage)
                           (Some false) ablation_eligible None
                           (ProductName "ablation") None "ablation");
                IntvObj (Intervention treat_num (PyFloat treat_coverage)
                           (Some false) excision_eligible None
                           (ProductName "excision") None "excision");
                ProductInst "radiation";
                IntvObj (Intervention treat_num
                           (PyFloat (fdiv treat_coverage (of_int 4)))
                           (Some false) radiation_eligible None
                           (ProductObj (length h + 5)) None "radiation") ]).
Proof.
  destruct (model_annual_screen_prob_eq A screen_coverage) as (v & _ & Hp).
  exists (int_sub 1 v). split; [exact Hp |].
  unfold make_st, M_bind, M_ret, lift, hpv_routine_screening,
    hpv_routine_triage, hpv_treat_num, hpv_radiation.
  unfold new. rewrite Hp. cbv beta iota.
  rewrite quarter_eq. cbv beta iota.
  rewrite !length_app. cbn [length].
  rewrite <- !app_assoc, <- !Nat.add_assoc. reflexivity.
Qed.
End Run.

Lemma lookup_built {X : Type} (h l : list X) (k : nat) :
  (h ++ l) !! (length h + k) = l !! k.
Proof. induction h as [|x h IH]; [reflexivity | exact IH]. Qed.

Lemma lookup_intv_built {F : Type} (h l : heap F) (k : nat) :
  lookup_intv (h ++ l) (length h + k) = lookup_intv l k.
Proof. unfold lookup_intv. now rewrite lookup_built. Qed.

Lemma lookup_list_built {F : Type} (h l : heap F) (k : nat) :
  lookup_list (h ++ l) (length h + k) = lookup_list l k.
Proof. unfold lookup_list. now rewrite lookup_built. Qed.

Lemma lookup_product_built {F : Type} (h l : heap F) (k : nat) :
  lookup_product (h ++ l) (length h + k) = lookup_product l k.
Proof. unfold lookup_product. now rewrite lookup_built. Qed.

(** The five interventions of the returned list, field by field. *)
Lemma make_st_steps (A : arith) (product : string)
    (screen_coverage treat_coverage : num A) (start_year : Z)
    (h : heap (num A)) :
  ∃ p, model_annual_screen_prob screen_coverage = Ret p ∧
    steps_of (make_st product screen_coverage treat_coverage start_year h) =
    Some [ Intervention routine_screening p None screen_eligible
             (Some start_year) (ProductName product) (Some (length h))
             "screening";
           Intervention routine_triage (PyFloat (of_int 1)) (Some false)
             screen_positive (Some start_year) (ProductName "tx_assigner")
             None "tx assigner";
           Intervention treat_num (PyFloat treat_coverage) (Some false)
             ablation_eligible None (ProductName "ablation") None "ablation";
           Intervention treat_num (PyFloat treat_coverage) (Some false)
             excision_eligible None (ProductName "excision") None "excision";
           Intervention treat_num (PyFloat (fdiv treat_coverage (of_int 4)))
             (Some false) radiation_eligible None
             (ProductObj (length h + 5)) None "radiation" ].
Proof.
  destruct (make_st_run A product screen_coverage treat_coverage start_year h)
    as (p & Hp & Hrun).
  exists p. split; [exact Hp |].
  rewrite Hrun. unfold steps_of. cbn [mapM].
  rewrite !lookup_intv_built. reflexivity.
Qed.

(** ** The cascade *)

(** C6. For every input, [make_st] returns a list of exactly five
    intervention steps, in the order screening, treatment assigner,
    ablation, excision, radiation: five distinct objects, built by
    [routine_screening], [routine_triage] and three times [treat_num],
    labelled "screening", "tx assigner", "ablation", "excision",
    "radiation". *)
Theorem make_st_five_steps_in_order (A : arith) (product : string)
    (screen_coverage treat_coverage : num A) (start_year : Z)
    (h : heap (num A)) :
  ∃ l h' steps,
    make_st product screen_coverage treat_coverage start_year h = Ret (l, h')
    ∧ length l = 5 ∧ NoDup l
    ∧ mapM (lookup_intv h') l = Some steps
    ∧ label <$> steps =
        ["screening"; "tx assigner"; "ablation"; "excision"; "radiation"]
    ∧ kind <$> steps =
        [routine_screening; routine_triage; treat_num; treat_num; treat_num].
Proof.
  destruct (make_st_run A product screen_coverage treat_coverage start_year h)
    as (p & _ & Hrun).
  destruct (make_st_steps A product screen_coverage treat_coverage start_year h)
    as (p' & _ & Hsteps).
  rewrite Hrun in Hsteps |- *. unfold steps_of in Hsteps.
  eexists _, _, _. split; [reflexivity |].
  split; [reflexivity |]. split.
  - repeat (apply NoDup_cons; split;
              [rewrite ?elem_of_cons, elem_of_nil; lia |]).
    apply NoDup_nil_2.
  - split; [exact Hsteps |]. split; reflexivity.
Qed.

(** C1. The probability handed to the screening step is
    [1 - (1 - screen_coverage) ** (1 / k)], where [k], half the width of
    the age window [30, 50], is 10. This holds for every
    [screen_coverage], so for every one in [0, 1]. *)
Theorem screening_prob_formula (A : arith) (product : string)
    (screen_coverage treat_coverage : num A) (start_year : Z)
    (h : heap (num A)) :
  ∃ k power screening rest,
    len_age_range = Ret k ∧ k = of_int 10
    ∧ fpow (fsub (of_int 1) screen_coverage) (fdiv (of_int 1) k) = Ret power
    ∧ model_annual_screen_prob screen_coverage = Ret (int_sub 1 power)
    ∧ steps_of (make_st product screen_coverage treat_coverage start_year h)
      = Some (screening :: rest)
    ∧ kind screening = routine_screening
    ∧ label screening = "screening"
    ∧ prob screening = int_sub 1 power.
Proof.
  destruct (model_annual_screen_prob_eq A screen_coverage) as (v & Hv & Hp).
  destruct (make_st_steps A product screen_coverage treat_coverage start_year h)
    as (p & Hp' & Hsteps).
  rewrite Hp in Hp'. injection Hp' as <-.
  eexists (of_int 10), v, _, _.
  split; [apply len_age_range_eq |]. split; [reflexivity |].
  split; [exact Hv |]. split; [exact Hp |].
  split; [exact Hsteps |]. repeat split.
Qed.

(** C5. The radiation step receives [treat_coverage / 4]; the ablation and
    the excision step each receive [treat_coverage] itself. *)
Theorem radiation_prob_is_quarter (A : arith) (product : string)
    (screen_coverage treat_coverage : num A) (start_year : Z)
    (h : heap (num A)) :
  ∃ screening assign_treatment ablation excision radiation,
    steps_of (make_st product screen_coverage treat_coverage start_year h)
    = Some [screening; assign_treatment; ablation; excision; radiation]
    ∧ label radiation = "radiation"
    ∧ prob radiation = PyFloat (fdiv treat_coverage (of_int 4))
    ∧ label ablation = "ablation"
    ∧ prob ablation = PyFloat treat_coverage
    ∧ label excision = "excision"
    ∧ prob excision = PyFloat treat_coverage.
Proof.
  destruct (make_st_steps A product screen_coverage treat_coverage start_year h)
    as (p & _ & Hsteps).
  eexists _, _, _, _, _. split; [exact Hsteps |]. repeat split.
Qed.

(** C10. The age window is no argument of [make_st]: whatever the four
    arguments are, the window stored with the screening step is the list
    [30, 50], its half-width is 10, and the call returns; in particular no
    division by zero is raised. *)
Theorem age_window_fixed (A : arith) (product : string)
    (screen_coverage treat_coverage : num A) (start_year : Z)
    (h : heap (num A)) :
  len_age_range (F := num A) = Ret (of_int 10)
  ∧ fis_zero (of_int (F := num A) 10) = false
  ∧ ∃ l h' screening rest window,
      make_st product screen_coverage treat_coverage start_year h = Ret (l, h')
      ∧ mapM (lookup_intv h') l = Some (screening :: rest)
      ∧ age_range screening = Some window
      ∧ lookup_list h' window = Some [30; 50]%Z.
Proof.
  split; [apply len_age_range_eq |]. split.
  { destruct A as [|pw]; cbn; [| reflexivity].
    unfold Ris_zero. destruct (Req_dec_T 10 0); [lra | reflexivity]. }
  destruct (make_st_run A product screen_coverage treat_coverage start_year h)
    as (p & _ & Hrun).
  destruct (make_st_steps A product screen_coverage treat_coverage start_year h)
    as (p' & _ & Hsteps).
  rewrite Hrun in Hsteps |- *. unfold steps_of in Hsteps.
  eexists _, _, _, _, _. split; [reflexivity |].
  split; [exact Hsteps |]. split; [reflexivity |].
  match goal with
  | |- lookup_list (h ++ ?objs) _ = _ =>
      pose proof (lookup_list_built h objs 0) as E
  end.
  rewrite Nat.add_0_r in E. exact E.
Qed.

(** ** Coverage values outside [0, 1] *)

(** C2 fails on the code: [make_st] has no check. With treat_coverage = 2
    (and screen_coverage = 0) the call returns its five steps, ablation
    with probability 2; so under neither arithmetic are bad coverages
    rejected. *)
Lemma coverage_two_is_not_rejected :
  (∀ A : arith,
     ¬ in_unit (of_int (F := num A) 2)
     ∧ ∃ steps ablation,
         steps_of (make_st "hpv" (of_int 0) (of_int (F := num A) 2) 2020 [])
         = Some steps
         ∧ steps !! 2%nat = Some ablation
         ∧ prob ablation = PyFloat (of_int 2))
  ∧ ¬ ∃ A : arith, rejects_bad_coverage A.
Proof.
  assert (Hout : ∀ A : arith, ¬ in_unit (of_int (F := num A) 2)).
  { intros [|pw] [_ Hle]; cbn in Hle; [lra | discriminate]. }
  split.
  - intros A. split; [apply Hout |].
    destruct (make_st_steps A "hpv" (of_int 0) (of_int 2) 2020 [])
      as (p & _ & Hsteps).
    eexists _, _. split; [exact Hsteps |]. split; reflexivity.
  - intros [A HA].
    destruct (HA "hpv" (of_int 0) (of_int 2) 2020%Z []) as [e He].
    { right. apply Hout. }
    destruct (make_st_run A "hpv" (of_int 0) (of_int 2) 2020 [])
      as (p & _ & Hrun).
    rewrite Hrun in He. discriminate.
Qed.

(** C2, amended. [make_st] checks nothing: whatever the coverage values,
    inside [0, 1] or not, the call returns five steps whose probabilities
    are computed from the values as given: [1 - (1 - screen_coverage) **
    (1 / 10)], 1.0, [treat_coverage] twice and [treat_coverage / 4]. *)
Theorem make_st_accepts_any_coverage (A : arith) (product : string)
    (screen_coverage treat_coverage : num A) (start_year : Z)
    (h : heap (num A)) :
  ∃ l h' steps power,
    make_st product screen_coverage treat_coverage start_year h = Ret (l, h')
    ∧ mapM (lookup_intv h') l = Some steps
    ∧ fpow (fsub (of_int 1) screen_coverage) (fdiv (of_int 1) (of_int 10))
      = Ret power
    ∧ prob <$> steps =
        [ int_sub 1 power; PyFloat (of_int 1); PyFloat treat_coverage;
          PyFloat treat_coverage; PyFloat (fdiv treat_coverage (of_int 4)) ].
Proof.
  destruct (model_annual_screen_prob_eq A screen_coverage) as (v & Hv & Hp).
  destruct (make_st_run A product screen_coverage treat_coverage start_year h)
    as (p & Hp' & Hrun).
  destruct (make_st_steps A product screen_coverage treat_coverage start_year h)
    as (p'' & Hp'' & Hsteps).
  rewrite Hp in Hp', Hp''. injection Hp' as <-. injection Hp'' as <-.
  rewrite Hrun in Hsteps |- *. unfold steps_of in Hsteps.
  eexists _, _, _, v. split; [reflexivity |].
  split; [exact Hsteps |]. split; [exact Hv | reflexivity].
Qed.

(** ** The derived screening probability *)

Lemma screening_prob_eq (A : arith) (product : string)
    (screen_coverage treat_coverage : num A) (start_year : Z)
    (h : heap (num A)) (p : pynum (num A)) :
  model_annual_screen_prob screen_coverage = Ret p →
  screening_prob A product screen_coverage treat_coverage start_year h
  = Some p.
Proof.
  intros Hp.
  destruct (make_st_steps A product screen_coverage treat_coverage start_year h)
    as (p' & Hp' & Hsteps).
  rewrite Hp in Hp'. injection Hp' as <-.
  unfold screening_prob. rewrite Hsteps. reflexivity.
Qed.

(** In exact arithmetic, for a coverage in [0, 1], the derived probability
    [p] is the solution in [0, 1] of [1 - (1 - p)^10 = screen_coverage]. *)
Lemma exact_screen_prob (c : R) :
  (0 <= c <= 1)%R →
  ∃ p : R, model_annual_screen_prob (F := num Exact) c = Ret (PyFloat p)
           ∧ (0 <= p <= 1)%R ∧ ((1 - p) ^ 10 = 1 - c)%R.
Proof.
  intros [H0 H1].
  destruct (model_annual_screen_prob_eq Exact c) as (v & Hv & Hp).
  rewrite Hp. cbn in Hv. unfold exact_pow, Ris_zero in Hv.
  destruct (Req_dec_T (1 / 10) 0) as [E|_]; [lra |].
  destruct (Req_dec_T (1 - c) 0) as [Ec|Ec].
  - destruct (Rlt_dec (1 / 10) 0) as [E|_]; [lra |].
    injection Hv as <-. exists (1 - 0)%R.
    split; [reflexivity |]. split; [lra |].
    rewrite Ec. replace (1 - (1 - 0))%R with 0%R by lra.
    rewrite pow_i by lia. reflexivity.
  - destruct (Rlt_dec (1 - c) 0) as [E|_]; [lra |].
    injection Hv as <-.
    assert (Hpos : (0 < 1 - c)%R) by lra.
    set (r := Rpower (1 - c) (1 / 10)).
    assert (Hr0 : (0 < r)%R) by apply exp_pos.
    assert (Hr10 : (r ^ 10 = 1 - c)%R).
    { rewrite <- (Rpower_pow 10 r Hr0). unfold r. rewrite Rpower_mult.
      replace (1 / 10 * INR 10)%R with 1%R by (cbn; lra).
      apply Rpower_1, Hpos. }
    assert (Hr1 : (r <= 1)%R).
    { destruct (Rle_dec r 1) as [Hle|Hgt]; [exact Hle | exfalso].
      assert (1 < r)%R by lra.
      assert (1 < r ^ 10)%R by (apply Rlt_pow_R1; [exact H | lia]).
      lra. }
    exists (1 - r)%R. split; [reflexivity |]. split; [lra |].
    replace (1 - (1 - r))%R with r by lra. exact Hr10.
Qed.






(** ** Eligibility *)

(** C4. A person is eligible for screening exactly if their
    [date_screened] is NaN or [sim.t > date_screened + 5 / dt]; this is the
    eligibility the screening step of the cascade carries. ([5 / dt]
    raises for [dt = 0].) *)
Theorem screen_eligible_iff (A : arith) (product : string)
    (screen_coverage treat_coverage : num A) (start_year : Z)
    (h : heap (num A)) (sim : Sim) (i : nat) (d : float) :
  (sim_dt sim =? 0)%float = false →
  date_screened sim !! i = Some d →
  ∃ screening rest mask,
    steps_of (make_st product screen_coverage treat_coverage start_year h)
    = Some (screening :: rest)
    ∧ label screening = "screening"
    ∧ eligibility screening sim = Ret (Mask mask)
    ∧ length mask = length (date_screened sim)
    ∧ (∃ e, mask !! i = Some e)
    ∧ (mask !! i = Some true ↔
       is_nan d = true
       ∨ (d + float_of_Z 5 / sim_dt sim <? float_of_Z (sim_t sim))%float
         = true).
Proof.
  intros Hdt Hd.
  destruct (make_st_steps A product screen_coverage treat_coverage start_year h)
    as (p & _ & Hsteps).
  eexists _, _, _. split; [exact Hsteps |]. split; [reflexivity |].
  cbn [eligibility]. unfold screen_eligible, sim_truediv.
  rewrite Hdt. cbn [py_bind]. split; [reflexivity |].
  split; [apply length_fmap |].
  rewrite list_lookup_fmap, Hd. cbn [fmap option_fmap option_map].
  split; [eauto |].
  rewrite <- orb_true_iff. split; [now intros [= ->] | now intros ->].
Qed.

Lemma screen_eligible_iff_witness :
  (sim_dt sim_quarterly =? 0)%float = false
  ∧ date_screened sim_quarterly !! 2%nat = Some 90%float
  ∧ ∃ screening rest mask,
      steps_of (make_st (F := num Exact) "hpv" 0%R 1%R 2020 [])
      = Some (screening :: rest)
      ∧ label screening = "screening"
      ∧ eligibility screening sim_quarterly = Ret (Mask mask)
      ∧ length mask = length (date_screened sim_quarterly)
      ∧ (∃ e, mask !! 2%nat = Some e)
      ∧ (mask !! 2%nat = Some true ↔
         is_nan 90%float = true
         ∨ (90 + float_of_Z 5 / sim_dt sim_quarterly
            <? float_of_Z (sim_t sim_quarterly))%float = true).
Proof.
  split; [reflexivity |]. split; [reflexivity |].
  exact (screen_eligible_iff Exact "hpv" 0%R 1%R 2020 [] sim_quarterly 2
           90%float eq_refl eq_refl).
Defined.

Example screen_eligible_quarterly :
  screen_eligible sim_quarterly = Ret (Mask [true; true; false]).
Proof. reflexivity. Qed.

(** C3. Where the treatment assigner has an [excision] bucket and ablation
    an [unsuccessful] bucket, the eligibility of the excision step is a
    list without duplicates whose members are exactly the members of
    either bucket. *)
Theorem excision_eligible_is_union (A : arith) (product : string)
    (screen_coverage treat_coverage : num A) (start_year : Z)
    (h : heap (num A)) (sim : Sim) (assigned unsuccessful : list Z) :
  outcome sim "tx assigner" "excision" = Ret assigned →
  outcome sim "ablation" "unsuccessful" = Ret unsuccessful →
  ∃ steps excision l,
    steps_of (make_st product screen_coverage treat_coverage start_year h)
    = Some steps
    ∧ steps !! 3%nat = Some excision
    ∧ label excision = "excision"
    ∧ eligibility excision sim = Ret (Inds l)
    ∧ NoDup l
    ∧ ∀ x, x ∈ l ↔ x ∈ assigned ∨ x ∈ unsuccessful.
Proof.
  intros Hassigned Hunsuccessful.
  destruct (make_st_steps A product screen_coverage treat_coverage start_year h)
    as (p & _ & Hsteps).
  eexists _, _, _. split; [exact Hsteps |]. split; [reflexivity |].
  split; [reflexivity |]. cbn [eligibility]. unfold excision_eligible.
  rewrite Hassigned, Hunsuccessful. cbn [py_bind].
  split; [reflexivity |]. split; [apply NoDup_elements |].
  intros x. rewrite elem_of_elements, elem_of_list_to_set, elem_of_app.
  reflexivity.
Qed.

Lemma excision_eligible_is_union_witness :
  outcome sim_treating "tx assigner" "excision" = Ret [4; 7]%Z
  ∧ outcome sim_treating "ablation" "unsuccessful" = Ret [7; 9]%Z
  ∧ ∃ steps excision l,
      steps_of (make_st (F := num Exact) "hpv" 0%R 1%R 2020 []) = Some steps
      ∧ steps !! 3%nat = Some excision
      ∧ label excision = "excision"
      ∧ eligibility excision sim_treating = Ret (Inds l)
      ∧ NoDup l
      ∧ ∀ x, x ∈ l ↔ x ∈ [4; 7]%Z ∨ x ∈ [7; 9]%Z.
Proof.
  split; [reflexivity |]. split; [reflexivity |].
  exact (excision_eligible_is_union Exact "hpv" 0%R 1%R 2020 [] sim_treating
           [4; 7]%Z [7; 9]%Z eq_refl eq_refl).
Defined.

Example excision_eligible_treating :
  ∃ l, excision_eligible sim_treating = Ret (Inds l) ∧ l ≡ₚ [4; 7; 9]%Z.
Proof.
  eexists. split; [vm_compute; reflexivity |].
  symmetry. apply (Permutation_cons_append [7; 9]%Z 4%Z).
Qed.

(** ** What an eligibility lambda reads *)

Lemma outcome_reads (s s' : Sim) (l key : string) :
  get_intervention s l = get_intervention s' l →
  outcome s l key = outcome s' l key.
Proof. intros E. unfold outcome. now rewrite E. Qed.

(** C7. In the returned cascade every eligibility lambda reads only steps
    that come strictly earlier in the list: screening reads no step, the
    treatment assigner reads screening, ablation reads the treatment
    assigner, excision reads the treatment assigner and ablation, and
    radiation reads the treatment assigner. *)
Theorem eligibility_reads_earlier_steps (A : arith) (product : string)
    (screen_coverage treat_coverage : num A) (start_year : Z)
    (h : heap (num A)) :
  ∃ screening assign_treatment ablation excision radiation,
    steps_of (make_st product screen_coverage treat_coverage start_year h)
    = Some [screening; assign_treatment; ablation; excision; radiation]
    ∧ reads_no_step (eligibility screening)
    ∧ reads_only_steps [label screening] (eligibility assign_treatment)
    ∧ reads_only_steps [label assign_treatment] (eligibility ablation)
    ∧ reads_only_steps [label assign_treatment; label ablation]
        (eligibility excision)
    ∧ reads_only_steps [label assign_treatment] (eligibility radiation).
Proof.
  destruct (make_st_steps A product screen_coverage treat_coverage start_year h)
    as (p & _ & Hsteps).
  eexists _, _, _, _, _. split; [exact Hsteps |]. cbn [eligibility label].
  split; [| repeat split]; intros s s' Hs.
  - destruct Hs as (Ht & Hdt & Hdate).
    unfold screen_eligible. now rewrite Ht, Hdt, Hdate.
  - unfold screen_positive.
    rewrite (outcome_reads s s' "screening"); [reflexivity |].
    apply Hs. set_solver.
  - unfold ablation_eligible.
    rewrite (outcome_reads s s' "tx assigner"); [reflexivity |].
    apply Hs. set_solver.
  - unfold excision_eligible.
    rewrite (outcome_reads s s' "tx assigner"),
      (outcome_reads s s' "ablation"); [reflexivity | |]; apply Hs; set_solver.
  - unfold radiation_eligible.
    rewrite (outcome_reads s s' "tx assigner"); [reflexivity |].
    apply Hs. set_solver.
Qed.

(** Each of these steps is read by the lambda that names it: the bound of
    C7 is not loose. Here the treatment assigner, whose result follows the
    [positive] bucket of screening. *)
Lemma screen_positive_reads_screening :
  ¬ reads_only_steps [] screen_positive.
Proof.
  intros Hno.
  set (s := MkSim 0 1%float []
              (fun _ => Ret (IntvState {[ "positive" := [1]%Z ]}))).
  set (s' := MkSim 0 1%float []
               (fun _ => Ret (IntvState {[ "positive" := [2]%Z ]}))).
  assert (E : screen_positive s = screen_positive s').
  { apply Hno. intros l Hl. set_solver. }
  vm_compute in E. discriminate E.
Qed.

(** ** Two calls *)

Lemma lookup_list_built_0 {F : Type} (h l : heap F) :
  lookup_list (h ++ l) (length h) = lookup_list l 0.
Proof. rewrite <- (lookup_list_built h l 0). f_equal. lia. Qed.

(** C9. A call changes no object that existed before it, and every step
    it returns, with all that the step refers to, is an object of its own
    making. So a second call with the same arguments leaves the steps of
    the first untouched and returns five other objects, which carry the
    same fields as those of the first call, one by one. *)
Theorem make_st_twice (A : arith) (product : string)
    (screen_coverage treat_coverage : num A) (start_year : Z)
    (h : heap (num A)) :
  ∃ l1 h1 l2 h2,
    make_st product screen_coverage treat_coverage start_year h = Ret (l1, h1)
    ∧ make_st product screen_coverage treat_coverage start_year h1
      = Ret (l2, h2)
    ∧ h `prefix_of` h1 ∧ h1 `prefix_of` h2
    ∧ Forall (step_built_between h h1) l1
    ∧ Forall (step_built_between h1 h2) l2
    ∧ (∀ a, a ∈ l1 → a ∉ l2)
    ∧ Forall2 (fun a1 a2 => same_step h1 a1 h2 a2) l1 l2.
Proof.
  destruct (make_st_run A product screen_coverage treat_coverage start_year h)
    as (p & Hp & Hrun1).
  set (h1 := h ++ _) in Hrun1.
  destruct (make_st_run A product screen_coverage treat_coverage start_year h1)
    as (p' & Hp' & Hrun2).
  rewrite Hp in Hp'. injection Hp' as <-.
  set (h2 := h1 ++ _) in Hrun2.
  assert (Hlen1 : length h1 = length h + 7).
  { unfold h1. rewrite length_app. reflexivity. }
  assert (Hlen2 : length h2 = length h1 + 7).
  { unfold h2. rewrite length_app. reflexivity. }
  eexists _, h1, _, h2.
  split; [exact Hrun1 |]. split; [exact Hrun2 |].
  split; [eexists; reflexivity |]. split; [eexists; reflexivity |].
  split; [| split; [| split]].
  - repeat apply Forall_cons_2; [.. | apply Forall_nil_2];
      (eexists; split;
       [ unfold h1; rewrite lookup_intv_built; reflexivity
       | step_fields; unfold built_between;
         repeat split; intros; simplify_eq; lia ]).
  - repeat apply Forall_cons_2; [.. | apply Forall_nil_2];
      (eexists; split;
       [ unfold h2; rewrite lookup_intv_built; reflexivity
       | step_fields; unfold built_between;
         repeat split; intros; simplify_eq; lia ]).
  - intros a. rewrite !elem_of_cons, !elem_of_nil. lia.
  - repeat apply Forall2_cons_2; [.. | apply Forall2_nil_2];
      (eexists _, _;
       split; [unfold h1; rewrite lookup_intv_built; reflexivity |];
       split; [unfold h2; rewrite lookup_intv_built; reflexivity |];
       step_fields; repeat (split; [reflexivity |])).
    + eexists. split.
      * unfold h1. rewrite lookup_list_built_0. reflexivity.
      * unfold h2. rewrite lookup_list_built_0. reflexivity.
    + exact I.
    + exact I.
    + exact I.
    + split; [| exact I]. eexists. split.
      * unfold h1. rewrite lookup_product_built. reflexivity.
      * unfold h2. rewrite lookup_product_built. reflexivity.
Qed.

(** ** Further properties of the derived probability *)



(** A coverage of 0 gives the probability 0, under both arithmetics. *)
Theorem zero_coverage_zero_prob (A : arith) (product : string)
    (treat_coverage : num A) (start_year : Z) (h : heap (num A)) :
  screening_prob A product (of_int 0) treat_coverage start_year h
  = Some (PyFloat (of_int 0)).
Proof.
  apply screening_prob_eq.
  destruct (model_annual_screen_prob_eq A (of_int 0)) as (v & Hv & Hp).
  rewrite Hp. f_equal.
  destruct A as [|pw]; cbn in Hv.
  - unfold exact_pow, Ris_zero in Hv.
    destruct (Req_dec_T (1 / 10) 0) as [E|_]; [lra |].
    destruct (Req_dec_T (1 - 0) 0) as [E|_]; [lra |].
    destruct (Rlt_dec (1 - 0) 0) as [E|_]; [lra |].
    injection Hv as <-. cbn. f_equal.
    replace (1 - 0)%R with 1%R by lra.
    unfold Rpower. rewrite ln_1, Rmult_0_r, exp_0. lra.
  - vm_compute in Hv. injection Hv as <-. reflexivity.
Qed.


(** In exact arithmetic the default coverage 0.15 gives a probability
    between 0.0161 and 0.0162. *)
Theorem default_coverage_prob_bounds (product : string)
    (treat_coverage : num Exact) (start_year : Z) (h : heap (num Exact)) :
  ∃ p : R,
    screening_prob Exact product (15 / 100)%R treat_coverage start_year h
    = Some (PyFloat p)
    ∧ (161 / 10000 < p < 162 / 10000)%R.
Proof.
  destruct (exact_screen_prob (15 / 100)) as (p & Ep & Hp & Hr); [lra |].
  exists p. split; [apply (screening_prob_eq Exact), Ep |].
  split.
  - destruct (Rlt_dec (161 / 10000) p) as [Hlt|Hge]; [exact Hlt | exfalso].
    assert (Hle : ((1 - 161 / 10000) ^ 10 <= (1 - p) ^ 10)%R)
      by (apply pow_incr; lra).
    rewrite Hr in Hle. cbn [pow] in Hle. lra.
  - destruct (Rlt_dec p (162 / 10000)) as [Hlt|Hge]; [exact Hlt | exfalso].
    assert (Hle : ((1 - p) ^ 10 <= (1 - 162 / 10000) ^ 10)%R)
      by (apply pow_incr; lra).
    rewrite Hr in Hle. cbn [pow] in Hle. lra.
Qed.

(** ** The eligibility of the other steps *)

(** The treatment assigner takes the [positive] bucket of screening;
    ablation and radiation take the [ablation] and the [radiation] bucket
    of the treatment assigner. *)
Theorem bucket_eligibilities (A : arith) (product : string)
    (screen_coverage treat_coverage : num A) (start_year : Z)
    (h : heap (num A)) (sim : Sim) (positive ablated radiated : list Z) :
  outcome sim "screening" "positive" = Ret positive →
  outcome sim "tx assigner" "ablation" = Ret ablated →
  outcome sim "tx assigner" "radiation" = Ret radiated →
  ∃ screening assign_treatment ablation excision radiation,
    steps_of (make_st product screen_coverage treat_coverage start_year h)
    = Some [screening; assign_treatment; ablation; excision; radiation]
    ∧ eligibility assign_treatment sim = Ret (Inds positive)
    ∧ eligibility ablation sim = Ret (Inds ablated)
    ∧ eligibility radiation sim = Ret (Inds radiated).
Proof.
  intros Hpos Habl Hrad.
  destruct (make_st_steps A product screen_coverage treat_coverage start_year h)
    as (p & _ & Hsteps).
  eexists _, _, _, _, _. split; [exact Hsteps |]. cbn [eligibility].
  unfold screen_positive, ablation_eligible, radiation_eligible.
  rewrite Hpos, Habl, Hrad. repeat split.
Qed.

Lemma bucket_eligibilities_witness :
  outcome sim_assigned "screening" "positive" = Ret [1; 2; 3]%Z
  ∧ outcome sim_assigned "tx assigner" "ablation" = Ret [1]%Z
  ∧ outcome sim_assigned "tx assigner" "radiation" = Ret [3]%Z
  ∧ ∃ screening assign_treatment ablation excision radiation,
      steps_of (make_st (F := num Exact) "hpv" 0%R 1%R 2020 [])
      = Some [screening; assign_treatment; ablation; excision; radiation]
      ∧ eligibility assign_treatment sim_assigned = Ret (Inds [1; 2; 3]%Z)
      ∧ eligibility ablation sim_assigned = Ret (Inds [1]%Z)
      ∧ eligibility radiation sim_assigned = Ret (Inds [3]%Z).
Proof.
  split; [reflexivity |]. split; [reflexivity |]. split; [reflexivity |].
  exact (bucket_eligibilities Exact "hpv" 0%R 1%R 2020 [] sim_assigned
           [1; 2; 3]%Z [1]%Z [3]%Z eq_refl eq_refl eq_refl).
Defined.

(** ** Python indexing *)

Lemma getitem_is_Some {X : Type} (l : list X) (i : Z) :
  is_Some (getitem l i) ↔ (- Z.of_nat (length l) <= i < Z.of_nat (length l))%Z.
Proof.
  unfold getitem.
  destruct (Z.leb_spec 0 i) as [H0|H0]; destruct (Z.ltb_spec i (Z.of_nat (length l))) as [H1|H1];
    cbn [andb].
  - rewrite lookup_lt_is_Some. lia.
  - destruct (Z.leb_spec (- Z.of_nat (length l)) i); destruct (Z.ltb_spec i 0);
      cbn [andb]; try lia.
    split; [intros [x Hx]; discriminate | lia].
  - destruct (Z.leb_spec (- Z.of_nat (length l)) i) as [H2|H2];
      destruct (Z.ltb_spec i 0) as [H3|H3]; cbn [andb]; try lia.
    + rewrite lookup_lt_is_Some. lia.
    + split; [intros [x Hx]; discriminate | lia].
  - lia.
Qed.

Lemma getitem_pair {X : Type} (x y : X) (i : Z) :
  getitem [x; y] i =
  if decide (i = 0 ∨ i = -2)%Z then Some x
  else if decide (i = 1 ∨ i = -1)%Z then Some y
  else None.
Proof.
  destruct (decide (i = 0 ∨ i = -2)%Z) as [[-> | ->]|H0]; try reflexivity.
  destruct (decide (i = 1 ∨ i = -1)%Z) as [[-> | ->]|H1]; try reflexivity.
  destruct (getitem [x; y] i) as [z|] eqn:E; [exfalso | reflexivity].
  assert (Hs : is_Some (getitem [x; y] i)) by (rewrite E; eauto).
  apply getitem_is_Some in Hs. cbn in Hs. lia.
Qed.

(** ** make_sim *)

Section RunnerProperties.
Variable mergedicts :
  gmap string pyval → gmap string pyval → gmap string pyval.

Lemma make_sim_returns (location : option string)
    (calib_pars : option (gmap string pyval)) (debug : Z)
    (interventions analyzers datafile : pyval) (seed end_ : Z) :
  (∃ sim, make_sim mergedicts location calib_pars debug interventions
            analyzers datafile seed end_ = Returned sim)
  ↔ (-2 <= debug <= 1)%Z.
Proof.
  unfold make_sim. rewrite !getitem_pair.
  destruct (decide (debug = 0 ∨ debug = -2)%Z) as [H0|H0].
  { split; [lia | eauto]. }
  destruct (decide (debug = 1 ∨ debug = -1)%Z) as [H1|H1].
  { split; [lia | eauto]. }
  split; [intros [sim Hsim]; discriminate | lia].
Qed.

(** [make_sim] indexes three two-element lists with [debug]: it returns
    for the four values -2, -1, 0, 1 and raises IndexError for every
    other one, whatever the other arguments are. *)
Theorem make_sim_returns_iff (location : option string)
    (calib_pars : option (gmap string pyval)) (debug : Z)
    (interventions analyzers datafile : pyval) (seed end_ : Z) :
  ((∃ sim, make_sim mergedicts location calib_pars debug interventions
             analyzers datafile seed end_ = Returned sim)
   ↔ (-2 <= debug <= 1)%Z)
  ∧ (make_sim mergedicts location calib_pars debug interventions analyzers
       datafile seed end_ = RaisedIndexError
     ↔ (debug < -2 ∨ 1 < debug)%Z).
Proof.
  pose proof (make_sim_returns location calib_pars debug interventions
                analyzers datafile seed end_) as Hret.
  split; [exact Hret |].
  destruct (make_sim mergedicts location calib_pars debug interventions
              analyzers datafile seed end_) as [sim|].
  - assert (-2 <= debug <= 1)%Z by (apply Hret; eauto).
    split; [discriminate | lia].
  - split; [intros _ | reflexivity].
    destruct (decide (-2 <= debug <= 1)%Z) as [Hin|Hout]; [| lia].
    apply Hret in Hin as [sim Hsim]. discriminate.
Qed.
End RunnerProperties.

Section RunnerProperties2.
Variable mergedicts :
  gmap string pyval → gmap string pyval → gmap string pyval.

(** Without calibration parameters the three settings that [debug]
    selects switch together, also under the negative indices: 0 and -2
    give 20000 agents, the step 0.25 and the start year 1960; 1 and -1
    give 1000 agents, the step 1.0 and the start year 1980. The end,
    location and seed entries are the arguments. *)
Theorem make_sim_debug_settings (location : option string) (debug : Z)
    (interventions analyzers datafile : pyval) (seed end_ : Z) :
  (-2 <= debug <= 1)%Z →
  ∃ sim,
    make_sim mergedicts location None debug interventions analyzers datafile
      seed end_ = Returned sim
    ∧ (((debug = 0 ∨ debug = -2)%Z
        ∧ pars sim !! "n_agents" = Some (VFloat 20000)
        ∧ pars sim !! "dt" = Some (VFloat 0.25)
        ∧ pars sim !! "start" = Some (VInt 1960))
       ∨ ((debug = 1 ∨ debug = -1)%Z
          ∧ pars sim !! "n_agents" = Some (VFloat 1000)
          ∧ pars sim !! "dt" = Some (VFloat 1)
          ∧ pars sim !! "start" = Some (VInt 1980)))
    ∧ pars sim !! "end" = Some (VInt end_)
    ∧ pars sim !! "location" = Some (location_value location)
    ∧ pars sim !! "rand_seed" = Some (VInt seed)
    ∧ sim_interventions sim = interventions
    ∧ sim_analyzers sim = analyzers
    ∧ sim_datafile sim = datafile.
Proof.
  intros Hdebug.
  assert (Hcases : (debug = -2 ∨ debug = -1 ∨ debug = 0 ∨ debug = 1)%Z) by lia.
  destruct Hcases as [-> | [-> | [-> | ->]]];
    (eexists; split; [reflexivity |]);
    (split; [first [left; repeat split; (lia || reflexivity)
                   | right; repeat split; (lia || reflexivity)] |]);
    repeat split; reflexivity.
Qed.

End RunnerProperties2.

Lemma make_sim_debug_settings_witness :
  (-2 <= -1 <= 1)%Z
  ∧ ∃ sim,
      make_sim (fun p c => c ∪ p) (Some "nigeria") None (-1)%Z VNone VNone
        VNone 1%Z 2020%Z = Returned sim
      ∧ (((-1 = 0 ∨ -1 = -2)%Z
          ∧ pars sim !! "n_agents" = Some (VFloat 20000)
          ∧ pars sim !! "dt" = Some (VFloat 0.25)
          ∧ pars sim !! "start" = Some (VInt 1960))
         ∨ ((-1 = 1 ∨ -1 = -1)%Z
            ∧ pars sim !! "n_agents" = Some (VFloat 1000)
            ∧ pars sim !! "dt" = Some (VFloat 1)
            ∧ pars sim !! "start" = Some (VInt 1980)))
      ∧ pars sim !! "end" = Some (VInt 2020)
      ∧ pars sim !! "location" = Some (location_value (Some "nigeria"))
      ∧ pars sim !! "rand_seed" = Some (VInt 1)
      ∧ sim_interventions sim = VNone
      ∧ sim_analyzers sim = VNone
      ∧ sim_datafile sim = VNone.
Proof.
  assert (H : (-2 <= -1 <= 1)%Z) by lia.
  split; [exact H |].
  exact (make_sim_debug_settings (fun p c => c ∪ p) (Some "nigeria") (-1)%Z
           VNone VNone VNone 1%Z 2020%Z H).
Defined.

(** The two layer tables [make_sim] writes are well formed: each has the
    age bins 0, 5, ..., 75 as its first row, and two more rows with one
    share per bin, each between 0 and 1. *)
Theorem make_sim_layer_tables
    (mergedicts : gmap string pyval → gmap string pyval → gmap string pyval)
    (location : option string) (debug : Z)
    (interventions analyzers datafile : pyval) (seed end_ : Z)
    (sim : sim_object) :
  make_sim mergedicts location None debug interventions analyzers datafile
    seed end_ = Returned sim →
  ∃ married casual,
    pars sim !! "layer_probs" = Some (VDict [("m", married); ("c", casual)])
    ∧ layer_table_ok married = true ∧ layer_table_ok casual = true.
Proof.
  intros Hsim.
  assert (Hdebug : (-2 <= debug <= 1)%Z).
  { apply (make_sim_returns mergedicts location None debug interventions
             analyzers datafile seed end_). eauto. }
  assert (Hcases : (debug = -2 ∨ debug = -1 ∨ debug = 0 ∨ debug = 1)%Z) by lia.
  destruct Hcases as [-> | [-> | [-> | ->]]];
    injection Hsim as <-; eexists _, _;
    (split; [reflexivity |]); split; reflexivity.
Qed.

Lemma make_sim_layer_tables_witness :
  make_sim (fun p c => c ∪ p) (Some "nigeria") None 0%Z VNone VNone VNone
    1%Z 2020%Z
  = Returned
      (hpv_Sim
         (<["f_partners" := f_partners]>
            (<["m_partners" := m_partners]>
               (<["layer_probs" := layer_probs]>
                  (<["debut" := debut]>
                     (list_to_map
                        [ ("n_agents", VFloat 20000); ("dt", VFloat 0.25);
                          ("start", VInt 1960); ("end", VInt 2020);
                          ("genotypes",
                           VList [VInt 16; VInt 18; VStr "hi5"; VStr "ohr"]);
                          ("location", VStr "nigeria");
                          ("ms_agent_ratio", VInt 100);
                          ("verbose", VFloat 0);
                          ("rand_seed", VInt 1) ])))))
         VNone VNone VNone)
  ∧ ∃ married casual,
      pars (hpv_Sim
         (<["f_partners" := f_partners]>
            (<["m_partners" := m_partners]>
               (<["layer_probs" := layer_probs]>
                  (<["debut" := debut]>
                     (list_to_map
                        [ ("n_agents", VFloat 20000); ("dt", VFloat 0.25);
                          ("start", VInt 1960); ("end", VInt 2020);
                          ("genotypes",
                           VList [VInt 16; VInt 18; VStr "hi5"; VStr "ohr"]);
                          ("location", VStr "nigeria");
                          ("ms_agent_ratio", VInt 100);
                          ("verbose", VFloat 0);
                          ("rand_seed", VInt 1) ])))))
         VNone VNone VNone) !! "layer_probs"
      = Some (VDict [("m", married); ("c", casual)])
      ∧ layer_table_ok married = true ∧ layer_table_ok casual = true.
Proof.
  split; [reflexivity |].
  exact (make_sim_layer_tables (fun p c => c ∪ p) (Some "nigeria") 0%Z VNone
           VNone VNone 1%Z 2020%Z _ eq_refl).
Defined.

(** ** run_sim *)

Section RunSimProperties.
Variable mergedicts :
  gmap string pyval → gmap string pyval → gmap string pyval.

(** A [debug] outside -2..1 makes [run_sim] raise IndexError before it has
    done anything: no engine call is made, and no objdict, the caller's
    [meta] included, is created or changed. *)
Theorem run_sim_bad_debug (location : option string)
    (analyzers interventions : pyval) (debug seed : Z) (verbose : float)
    (do_save : bool) (end_ : Z) (calib_pars : option (gmap string pyval))
    (meta : option addr) (w : world) :
  (debug < -2 ∨ 1 < debug)%Z →
  run_sim mergedicts location analyzers interventions debug seed verbose
    do_save end_ calib_pars meta w = (RaisedIndexError, w).
Proof.
  intros Hdebug. unfold run_sim.
  destruct (make_sim mergedicts location calib_pars debug interventions
              analyzers VNone 1 end_) as [sim|] eqn:Hsim; [| reflexivity].
  assert ((-2 <= debug <= 1)%Z); [| lia].
  apply (make_sim_returns mergedicts location calib_pars debug
           interventions analyzers VNone 1 end_). eauto.
Qed.

(** What a call does once [make_sim] has returned [sim0]. *)
Lemma run_sim_after_make_sim (location : option string)
    (analyzers interventions : pyval) (debug seed : Z) (verbose : float)
    (do_save : bool) (end_ : Z) (calib_pars : option (gmap string pyval))
    (meta : option addr) (w : world) (sim0 : sim_object) :
  make_sim mergedicts location calib_pars debug interventions analyzers VNone
    1 end_ = Returned sim0 →
  let held := match meta with
              | Some m => m
              | None => S (length (objdicts w))
              end in
  let sim :=
    SimObject (<["verbose" := VFloat verbose]>
                 (<["rand_seed" := VInt seed]> (pars sim0)))
      interventions analyzers VNone
      (Some (format_location location +:+ "--" +:+ pretty seed))
      (Some held) in
  run_sim mergedicts location analyzers interventions debug seed verbose
    do_save end_ calib_pars meta w
  = (Returned sim,
     World (alter (insert "location" (location_value location)) held
              (objdicts w ++ [∅] ++ (if meta is Some _ then [] else [∅])))
       (calls w ++ [SimRun sim; SimShrink sim]
        ++ (if do_save
            then [SimSave sim ("results/" +:+ format_location location
                               +:+ ".sim")]
            else []))).
Proof.
  intros Hsim0.
  assert (Hfields : sim_interventions sim0 = interventions
                    ∧ sim_analyzers sim0 = analyzers
                    ∧ sim_datafile sim0 = VNone).
  { unfold make_sim in Hsim0.
    destruct (getitem _ debug); [| discriminate].
    destruct (getitem _ debug); [| discriminate].
    destruct (getitem _ debug); [| discriminate].
    injection Hsim0 as <-. repeat split. }
  destruct Hfields as (Hi & Ha & Hd).
  unfold run_sim. rewrite Hsim0.
  destruct sim0 as [p0 i0 a0 d0 l0 m0]. cbn in Hi, Ha, Hd. subst i0 a0 d0.
  unfold new_objdict, sim_setitem, set_meta, set_label, call,
    objdict_setattr.
  destruct meta as [m|]; destruct do_save;
    cbn [pars sim_interventions sim_analyzers sim_datafile sim_label
         sim_meta objdicts calls];
    rewrite <- ?app_assoc, ?length_app; cbn [length app];
    rewrite ?Nat.add_1_r; reflexivity.
Qed.

(** For a [debug] in -2..1, [run_sim] returns after exactly these engine
    calls: run, shrink and, only with [do_save], save to
    [results/<location>.sim], in this order. The simulation they act on
    carries [rand_seed = seed] and [verbose = verbose], whatever
    [calib_pars] holds, the label [<location>--<seed>], the interventions
    and analyzers as passed, and no data file. *)
Theorem run_sim_engine_calls (location : option string)
    (analyzers interventions : pyval) (debug seed : Z) (verbose : float)
    (do_save : bool) (end_ : Z) (calib_pars : option (gmap string pyval))
    (meta : option addr) (w : world) :
  (-2 <= debug <= 1)%Z →
  ∃ sim w',
    run_sim mergedicts location analyzers interventions debug seed verbose
      do_save end_ calib_pars meta w = (Returned sim, w')
    ∧ calls w' =
        calls w ++ [SimRun sim; SimShrink sim]
        ++ (if do_save
            then [SimSave sim ("results/" +:+ format_location location
                               +:+ ".sim")]
            else [])
    ∧ pars sim !! "rand_seed" = Some (VInt seed)
    ∧ pars sim !! "verbose" = Some (VFloat verbose)
    ∧ sim_label sim = Some (format_location location +:+ "--" +:+ pretty seed)
    ∧ sim_interventions sim = interventions
    ∧ sim_analyzers sim = analyzers
    ∧ sim_datafile sim = VNone.
Proof.
  intros Hdebug.
  destruct (proj2 (make_sim_returns mergedicts location calib_pars debug
                     interventions analyzers VNone 1 end_) Hdebug)
    as [sim0 Hsim0].
  rewrite (run_sim_after_make_sim location analyzers interventions debug seed
             verbose do_save end_ calib_pars meta w sim0 Hsim0).
  eexists _, _. split; [reflexivity |]. cbn -[pretty].
  split; [reflexivity |].
  split; [rewrite lookup_insert_ne by done; apply lookup_insert_eq |].
  split; [apply lookup_insert_eq |]. repeat split.
Qed.



(** Runs of the same location that differ in the seed get different
    labels, but with [do_save] they save to the same file: the path does
    not depend on the seed. *)
Theorem run_sim_label_and_path (location : option string)
    (analyzers interventions : pyval) (debug seed1 seed2 : Z)
    (verbose : float) (end_ : Z) (calib_pars : option (gmap string pyval))
    (meta : option addr) (w : world) :
  (-2 <= debug <= 1)%Z →
  ∃ sim1 w1 sim2 w2 path,
    run_sim mergedicts location analyzers interventions debug seed1 verbose
      true end_ calib_pars meta w = (Returned sim1, w1)
    ∧ run_sim mergedicts location analyzers interventions debug seed2 verbose
        true end_ calib_pars meta w1 = (Returned sim2, w2)
    ∧ (sim_label sim1 = sim_label sim2 ↔ seed1 = seed2)
    ∧ last (calls w1) = Some (SimSave sim1 path)
    ∧ last (calls w2) = Some (SimSave sim2 path).
Proof.
  intros Hdebug.
  destruct (proj2 (make_sim_returns mergedicts location calib_pars debug
                     interventions analyzers VNone 1 end_) Hdebug)
    as [sim0 Hsim0].
  rewrite (run_sim_after_make_sim location analyzers interventions debug seed1
             verbose true end_ calib_pars meta w sim0 Hsim0).
  eexists _, _.
  rewrite (run_sim_after_make_sim location analyzers interventions debug seed2
             verbose true end_ calib_pars meta _ sim0 Hsim0).
  eexists _, _, _. split; [reflexivity |]. split; [reflexivity |].
  cbn -[pretty]. split.
  - split; [| now intros ->].
    intros [= E]. apply (inj (String.append _)) in E.
    apply (inj (String.append _)) in E. exact (inj pretty _ _ E).
  - rewrite !last_app. split; reflexivity.
Qed.
End RunSimProperties.

Lemma run_sim_bad_debug_witness :
  (2 < -2 ∨ 1 < 2)%Z
  ∧ run_sim (fun p c => c ∪ p) None VNone VNone 2%Z 1%Z 0.2%float true
      2020%Z None None (World [] [])
    = (RaisedIndexError, World [] []).
Proof.
  assert (H : (2 < -2 ∨ 1 < 2)%Z) by lia.
  split; [exact H |].
  exact (run_sim_bad_debug (fun p c => c ∪ p) None VNone VNone 2%Z 1%Z
           0.2%float true 2020%Z None None (World [] []) H).
Defined.

Lemma run_sim_engine_calls_witness :
  (-2 <= 0 <= 1)%Z
  ∧ ∃ sim w',
      run_sim (fun p c => c ∪ p) (Some "nigeria") VNone VNone 0%Z 7%Z
        0.2%float true 2060%Z (Some {[ "rand_seed" := VInt 3 ]}) None
        (World [] []) = (Returned sim, w')
      ∧ calls w' =
          [] ++ [SimRun sim; SimShrink sim]
          ++ (if true
              then [SimSave sim ("results/" +:+ format_location (Some "nigeria")
                                 +:+ ".sim")]
              else [])
      ∧ pars sim !! "rand_seed" = Some (VInt 7)
      ∧ pars sim !! "verbose" = Some (VFloat 0.2)
      ∧ sim_label sim
        = Some (format_location (Some "nigeria") +:+ "--" +:+ pretty 7%Z)
      ∧ sim_interventions sim = VNone
      ∧ sim_analyzers sim = VNone
      ∧ sim_datafile sim = VNone.
Proof.
  assert (H : (-2 <= 0 <= 1)%Z) by lia.
  split; [exact H |].
  exact (run_sim_engine_calls (fun p c => c ∪ p) (Some "nigeria") VNone VNone
           0%Z 7%Z 0.2%float true 2060%Z (Some {[ "rand_seed" := VInt 3 ]})
           None (World [] []) H).
Defined.



Lemma run_sim_label_and_path_witness :
  (-2 <= 0 <= 1)%Z
  ∧ ∃ sim1 w1 sim2 w2 path,
      run_sim (fun p c => c ∪ p) (Some "nigeria") VNone VNone 0%Z 1%Z
        0.2%float true 2020%Z None None (World [] []) = (Returned sim1, w1)
      ∧ run_sim (fun p c => c ∪ p) (Some "nigeria") VNone VNone 0%Z 2%Z
          0.2%float true 2020%Z None None w1 = (Returned sim2, w2)
      ∧ (sim_label sim1 = sim_label sim2 ↔ 1%Z = 2%Z)
      ∧ last (calls w1) = Some (SimSave sim1 path)
      ∧ last (calls w2) = Some (SimSave sim2 path).
Proof.
  assert (H : (-2 <= 0 <= 1)%Z) by lia.
  split; [exact H |].
  exact (run_sim_label_and_path (fun p c => c ∪ p) (Some "nigeria") VNone
           VNone 0%Z 1%Z 2%Z 0.2%float 2020%Z None None (World [] []) H).
Defined.

(** ** Errors of the eligibility lambdas *)

(** The screening lambda raises exactly if [dt] is zero (0.0 or -0.0), and
    then ZeroDivisionError: also for an empty population, and although a
    person never screened is eligible whatever [dt] is. Otherwise it
    returns a mask with one entry per person. *)
Theorem screen_eligible_raises_iff (sim : Sim) :
  (screen_eligible sim = Raise ZeroDivisionError
   ↔ (sim_dt sim =? 0)%float = true)
  ∧ ((∃ mask, screen_eligible sim = Ret (Mask mask)
              ∧ length mask = length (date_screened sim))
     ↔ (sim_dt sim =? 0)%float = false).
Proof.
  unfold screen_eligible, sim_truediv.
  destruct (sim_dt sim =? 0)%float; cbn [py_bind]; split; split;
    try discriminate; try reflexivity.
  - intros (mask & Hmask & _). discriminate.
  - intros _. eexists. split; [reflexivity | apply length_fmap].
Qed.

(** The excision lambda returns nothing partial: it returns exactly if
    both buckets can be read. If the [excision] bucket cannot be read, its
    error is raised; if only the [unsuccessful] bucket of ablation cannot
    be read, that error is raised, and the people assigned to excision are
    not returned. A bucket missing from an intervention that exists gives
    KeyError with the name of the bucket. *)
Theorem excision_eligible_errors (sim : Sim) :
  ((∃ l, excision_eligible sim = Ret (Inds l))
   ↔ (∃ a, outcome sim "tx assigner" "excision" = Ret a)
     ∧ (∃ b, outcome sim "ablation" "unsuccessful" = Ret b))
  ∧ (∀ e, outcome sim "tx assigner" "excision" = Raise e →
          excision_eligible sim = Raise e)
  ∧ (∀ a e, outcome sim "tx assigner" "excision" = Ret a →
            outcome sim "ablation" "unsuccessful" = Raise e →
            excision_eligible sim = Raise e)
  ∧ (∀ i label key, get_intervention sim label = Ret i →
                    outcomes i !! key = None →
                    outcome sim label key = Raise (KeyError key)).
Proof.
  unfold excision_eligible.
  split; [| split; [| split]].
  - destruct (outcome sim "tx assigner" "excision") as [a|e];
      destruct (outcome sim "ablation" "unsuccessful") as [b|e'];
      cbn [py_bind]; split;
      try (intros [l Hl]; discriminate);
      try (intros [[a' Ha'] [b' Hb']]; discriminate);
      eauto.
  - intros e ->. reflexivity.
  - intros a e -> ->. reflexivity.
  - intros i label key Hi Hkey. unfold outcome. rewrite Hi. cbn [py_bind].
    rewrite Hkey. reflexivity.
Qed.

(** ** Bounds of the derived probability *)





(** ** The script *)

(** The script runs two simulations and saves none. Both are set up with
    the same parameters (those of [debug = 0], with end year 2060, seed 1
    and location [None]: the script's [location = 'nigeria'] is not
    passed on) and get the same label; they differ in their
    interventions, two lists from two calls of [make_st] with no object
    in common. Both curves are plotted against the years of the baseline
    run. *)
Theorem main_runs_two_scenarios
    (pow_value : float → float → pynum float)
    (mergedicts : gmap string pyval → gmap string pyval → gmap string pyval)
    (h : heap float) (w : world) :
  ∃ baseline_st scenario_st h' w' sim_baseline sim_scenario,
    main pow_value mergedicts h w
    = Some (h', w',
            [ TimerStart; PlFigure;
              PlPlot (Series sim_baseline "year" 50)
                (Series sim_baseline "cancers" 50) None "Baseline";
              PlPlot (Series sim_baseline "year" 50)
                (Series sim_scenario "cancers" 50) (Some "r")
                "Improved screen & treat";
              PlLegend; PlTitle "cancers"; PlShow; TimerToc "Done" ])
    ∧ calls w' =
        calls w ++ [ SimRun sim_baseline; SimShrink sim_baseline;
                     SimRun sim_scenario; SimShrink sim_scenario ]
    ∧ pars sim_baseline = pars sim_scenario
    ∧ pars sim_baseline !! "location" = Some VNone
    ∧ pars sim_baseline !! "rand_seed" = Some (VInt 1)
    ∧ pars sim_baseline !! "end" = Some (VInt 2060)
    ∧ pars sim_baseline !! "n_agents" = Some (VFloat 20000)
    ∧ sim_label sim_baseline = Some "None--1"
    ∧ sim_label sim_scenario = Some "None--1"
    ∧ sim_interventions sim_baseline = interventions_value baseline_st
    ∧ sim_interventions sim_scenario = interventions_value scenario_st
    ∧ length baseline_st = 5 ∧ length scenario_st = 5
    ∧ (∀ a, a ∈ baseline_st → a ∉ scenario_st).
Proof.
  unfold main.
  destruct (make_st_run (Binary64 pow_value) "hpv" 0.05%float 0.3%float
              2020%Z h)
    as (p1 & _ & Hrun1).
  match type of Hrun1 with _ = Ret (_, ?x) => set (h1 := x) in Hrun1 end.
  destruct (make_st_run (Binary64 pow_value) "hpv" 0.50%float 0.7%float
              2020%Z h1) as (p2 & _ & Hrun2).
  match type of Hrun2 with _ = Ret (_, ?x) => set (h2 := x) in Hrun2 end.
  assert (Hlen1 : length h1 = length h + 7).
  { unfold h1. rewrite length_app. reflexivity. }
  change (bool_decide ("run_single" ∈ to_run)) with false.
  change (bool_decide ("run_scenario" ∈ to_run)) with true.
  cbv beta iota zeta. rewrite Hrun1. cbv beta iota. rewrite Hrun2.
  cbv beta iota.
  assert (Hmake : ∃ P,
             (∀ i, make_sim mergedicts None None debug i VNone VNone 1%Z 2060%Z
                   = Returned (SimObject P i VNone VNone None None))
             ∧ P !! "location" = Some VNone
             ∧ P !! "end" = Some (VInt 2060)
             ∧ P !! "n_agents" = Some (VFloat 20000)).
  { eexists. split; [intros i; reflexivity |]. repeat split. }
  destruct Hmake as (P & HP & Hloc & Hend & Hn).
  match goal with
  | |- context [run_sim _ _ _ ?i _ _ _ _ _ _ _ w] =>
      rewrite (run_sim_after_make_sim mergedicts None VNone i debug 1%Z
                 0.2%float false 2060%Z None None w _ (HP i))
  end.
  cbv beta iota zeta.
  match goal with
  | |- context [run_sim _ _ _ ?i _ _ _ _ _ _ _ ?w1] =>
      rewrite (run_sim_after_make_sim mergedicts None VNone i debug 1%Z
                 0.2%float false 2060%Z None None w1 _ (HP i))
  end.
  cbv beta iota zeta.
  eexists _, _, _, _, _, _. split; [reflexivity |].
  cbn [calls pars sim_label sim_interventions].
  split; [rewrite <- !app_assoc; reflexivity |].
  split; [reflexivity |].
  split; [rewrite !lookup_insert_ne by done; exact Hloc |].
  split; [rewrite lookup_insert_ne by done; apply lookup_insert_eq |].
  split; [rewrite !lookup_insert_ne by done; exact Hend |].
  split; [rewrite !lookup_insert_ne by done; exact Hn |].
  split; [reflexivity |]. split; [reflexivity |].
  split; [reflexivity |]. split; [reflexivity |].
  split; [reflexivity |]. split; [reflexivity |].
  intros a. rewrite Hlen1, !elem_of_cons, !elem_of_nil. unfold addr in *.
  change (num (Binary64 pow_value)) with float in *. lia.
Qed.
